(** * Thumbnailer: geometry, orientation and encoding of
      synapse/rest/media/v1/thumbnailer.py

    The Python module is embedded shallowly.  Python integers are [Z]
    (unbounded), dictionaries are stdpp [gmap]s, exceptions are values of an
    error monad that also carries the records written to the module logger.
    The imaging library (PIL) is outside the repository: it is represented by
    the size and pixel mode of the image every call returns, the call the
    image came from, and what its writers accept. *)

From Stdlib Require Import ZArith Lia.
From stdpp Require Import base gmap strings.

Local Open Scope Z_scope.

(** ** Python values, exceptions and the effect monad *)

Module Py.

(** The exception classes that show up in this module.  [KeyboardInterrupt]
    and [SystemExit] derive from [BaseException] only, so a clause
    [except Exception] lets them through. *)
Inductive Exc : Type :=
| KeyError (key : string)
| ValueError (msg : string)
| ZeroDivisionError
| TypeError (msg : string)
| AttributeError (msg : string)
| IOError (msg : string)
| SyntaxError (msg : string)
| SystemError (msg : string)
| KeyboardInterrupt
| SystemExit.

(** [IOError] and [OSError] are two names of one class. *)
Abbreviation OSError := IOError (only parsing).

Definition is_Exception (e : Exc) : bool :=
  match e with
  | KeyboardInterrupt | SystemExit => false
  | _ => true
  end.

(** Values found in an EXIF dictionary. *)
Inductive Value : Type :=
| Int (n : Z)
| Str (s : string)
| Bytes (b : list Z)
| Tuple (items : list Z).

Inductive Outcome (A : Type) : Type :=
| Ok (a : A)
| Raise (e : Exc).
Arguments Ok {A} a.
Arguments Raise {A} e.

(** A call to [logger.info(fmt, arg)]. *)
Inductive Level : Type := DEBUG | INFO | WARNING | ERROR.

Record LogRecord : Type := mkLog {
  log_level : Level;
  log_format : string;
  log_arg : Exc
}.

(** A computation yields the log records it emitted and how it ended. *)
Definition M (A : Type) : Type := (list LogRecord * Outcome A)%type.

Definition ret {A} (a : A) : M A := ([], Ok a).

Definition raise {A} (e : Exc) : M A := ([], Raise e).

Definition bind {A B} (m : M A) (k : A → M B) : M B :=
  match m with
  | (l, Ok a) => let '(l', r) := k a in (l ++ l', r)
  | (l, Raise e) => (l, Raise e)
  end.

(** [try: m except Exception as e: h e] *)
Definition try_except {A} (m : M A) (h : Exc → M A) : M A :=
  match m with
  | (l, Ok a) => (l, Ok a)
  | (l, Raise e) =>
      if is_Exception e then let '(l', r) := h e in (l ++ l', r)
      else (l, Raise e)
  end.

Definition logger_info (fmt : string) (arg : Exc) : M unit :=
  ([mkLog INFO fmt arg], Ok tt).

(** [a // b] on integers: floor division, [ZeroDivisionError] on [b = 0]. *)
Definition floordiv (a b : Z) : M Z :=
  if b =? 0 then raise ZeroDivisionError else ret (a / b).

(** [d[k]] on a dictionary with string keys. *)
Definition getitem {V} (d : gmap string V) (k : string) : M V :=
  match d !! k with
  | Some v => ret v
  | None => raise (KeyError k)
  end.

End Py.

(** The monad is registered with stdpp's classes, which gives the notations
    [x ← m; k] and [m ;; k]. *)
#[global] Instance M_ret : MRet Py.M := @Py.ret.
#[global] Instance M_bind : MBind Py.M := λ A B k m, Py.bind m k.

(** ** The imaging library, as far as the thumbnailer uses it *)

Module Image.

(** The constants accepted by [Image.transpose]. *)
Inductive Method : Type :=
| FLIP_LEFT_RIGHT
| FLIP_TOP_BOTTOM
| ROTATE_90
| ROTATE_180
| ROTATE_270
| TRANSPOSE
| TRANSVERSE.

Inductive Filter : Type := NEAREST | BILINEAR | BICUBIC | ANTIALIAS.

(** Quarter turns and the two diagonal mirrors exchange the axes. *)
Definition swaps_axes (m : Method) : bool :=
  match m with
  | ROTATE_90 | ROTATE_270 | TRANSPOSE | TRANSVERSE => true
  | FLIP_LEFT_RIGHT | FLIP_TOP_BOTTOM | ROTATE_180 => false
  end.

(** Pixel modes: the library's standard modes, and [LA]. *)
Inductive Mode : Type :=
| M1 | ML | MLA | MP | MRGB | MRGBA | MCMYK | MYCbCr | MLAB | MHSV | MI | MF.

Definition mode_name (m : Mode) : string :=
  match m with
  | M1 => "1" | ML => "L" | MLA => "LA" | MP => "P"
  | MRGB => "RGB" | MRGBA => "RGBA" | MCMYK => "CMYK" | MYCbCr => "YCbCr"
  | MLAB => "LAB" | MHSV => "HSV" | MI => "I" | MF => "F"
  end.

(** The pixel grid of an image, described by how it was obtained. *)
Inductive Raster : Type :=
| Decoded (w h : Z)
| Transposed (m : Method) (r : Raster)
| Resized (w h : Z) (f : Filter) (r : Raster)
| Cropped (x0 y0 x1 y1 : Z) (r : Raster).

Fixpoint raster_size (r : Raster) : Z * Z :=
  match r with
  | Decoded w h => (w, h)
  | Transposed m r' =>
      let '(w, h) := raster_size r' in
      if swaps_axes m then (h, w) else (w, h)
  | Resized w h _ _ => (w, h)
  | Cropped x0 y0 x1 y1 _ => (Z.max 0 (x1 - x0), Z.max 0 (y1 - y0))
  end.

(** What [_getexif()] does on an image: it raises, or returns [None] or
    the dictionary of tags. *)
Inductive Getexif : Type :=
| GetexifRaises (e : Py.Exc)
| GetexifReturns (d : option (gmap Z Py.Value)).

(** An image object: its pixels and their mode, the entry [info["exif"]]
    (absent, or present with value [None] or the raw bytes) and its EXIF
    reader. *)
Record t : Type := mk {
  raster : Raster;
  mode : Mode;
  info_exif : option (option (list Z));
  getexif : Getexif
}.

Definition size (im : t) : Z * Z := raster_size (raster im).

(** Images derived by an operation keep the mode and carry a copy of
    [info]; they are plain images without a format plugin, hence without
    [_getexif]. *)
Definition derive (im : t) (r : Raster) : t :=
  {| raster := r;
     mode := mode im;
     info_exif := info_exif im;
     getexif := GetexifRaises (Py.AttributeError "_getexif") |}.

Definition transpose (im : t) (m : Method) : t :=
  derive im (Transposed m (raster im)).

Definition _getexif (im : t) : Py.M (option (gmap Z Py.Value)) :=
  match getexif im with
  | GetexifRaises e => Py.raise e
  | GetexifReturns d => Py.ret d
  end.

(** [Image.open(path)]: [files] holds the paths that decode to an image;
    any other path fails. *)
Definition open (files : gmap string t) (path : string) : Py.M t :=
  match files !! path with
  | Some im => Py.ret im
  | None => Py.raise (Py.IOError "cannot identify image file")
  end.

(** [resize] refuses a target with a side below one pixel. *)
Definition resize (im : t) (sz : Z * Z) (f : Filter) : Py.M t :=
  let '(w, h) := sz in
  if (w <? 1) || (h <? 1)
  then Py.raise (Py.ValueError "height and width must be > 0")
  else Py.ret (derive im (Resized w h f (raster im))).

Definition crop (im : t) (box : Z * Z * Z * Z) : t :=
  let '(x0, y0, x1, y1) := box in
  derive im (Cropped x0 y0 x1 y1 (raster im)).

Definition set_info_exif (im : t) (v : option (list Z)) : t :=
  {| raster := raster im; mode := mode im; info_exif := Some v;
     getexif := getexif im |}.

(** One [save] into a byte buffer: the format, the quality and the image
    that was serialised. *)
Record Encoded : Type := mkEncoded {
  enc_format : string;
  enc_quality : Z;
  enc_image : t
}.

(** An [io.BytesIO]: the writes it received, oldest first. *)
Definition BytesIO : Type := list Encoded.

(** The modes the JPEG writer has a raw mode for, and the modes the PNG
    writer has an output mode for. *)
Definition jpeg_rawmode (m : Mode) : bool :=
  match m with
  | M1 | ML | MRGB | MCMYK | MYCbCr => true
  | MLA | MP | MRGBA | MLAB | MHSV | MI | MF => false
  end.

Definition png_outmode (m : Mode) : bool :=
  match m with
  | M1 | ML | MLA | MI | MP | MRGB | MRGBA => true
  | MCMYK | MYCbCr | MLAB | MHSV | MF => false
  end.

(** The longest side a JPEG stream can hold. *)
Definition JPEG_MAX_DIMENSION : Z := 65500.

(** The library's bound on the pixel count of a reasonable image. *)
Definition MAX_IMAGE_PIXELS : Z := 1024 * 1024 * 1024 / 4 / 3.

(** What a writer does with an image of mode [m] and size [sz]: [None] when
    it writes it, the exception otherwise.  A writer refuses a mode it cannot
    hold, an empty image, and, for JPEG, a side above the format's limit;
    the writers are looked up under the names the thumbnailer uses. *)
Definition encoder_error (fmt : string) (m : Mode) (sz : Z * Z)
  : option Py.Exc :=
  let '(w, h) := sz in
  if String.eqb fmt "JPEG" then
    if negb (jpeg_rawmode m)
    then Some (Py.OSError
                 (String.append "cannot write mode "
                    (String.append (mode_name m) " as JPEG")))
    else if (w <? 1) || (h <? 1)
    then Some (Py.SystemError "tile cannot extend outside image")
    else if (JPEG_MAX_DIMENSION <? w) || (JPEG_MAX_DIMENSION <? h)
    then Some (Py.OSError "encoder error -2 when writing image file")
    else None
  else if String.eqb fmt "PNG" then
    if negb (png_outmode m)
    then Some (Py.OSError
                 (String.append "cannot write mode "
                    (String.append (mode_name m) " as PNG")))
    else if (w <? 1) || (h <? 1)
    then Some (Py.SystemError "tile cannot extend outside image")
    else None
  else Some (Py.KeyError fmt).

(** [im.save(buf, fmt, quality=quality)]: no conversion is made, the image
    is written as it is or the writer raises. *)
Definition save (im : t) (buf : BytesIO) (fmt : string) (quality : Z)
  : Py.M BytesIO :=
  match encoder_error fmt (mode im) (size im) with
  | Some e => Py.raise e
  | None => Py.ret (buf ++ [mkEncoded fmt quality im])
  end.

End Image.

(** ** The module under verification *)

Definition EXIF_ORIENTATION_TAG : Z := 0x0112.

Definition EXIF_TRANSPOSE_MAPPINGS : gmap Z Image.Method :=
  list_to_map [
    (2, Image.FLIP_LEFT_RIGHT);
    (3, Image.ROTATE_180);
    (4, Image.FLIP_TOP_BOTTOM);
    (5, Image.TRANSPOSE);
    (6, Image.ROTATE_270);
    (7, Image.TRANSVERSE);
    (8, Image.ROTATE_90)
  ].

(** [EXIF_TRANSPOSE_MAPPINGS.get(key)]: the table has integer keys, so only
    an integer can be found; [None] and every other value give [None]. *)
Definition EXIF_TRANSPOSE_MAPPINGS_get (key : option Py.Value)
  : option Image.Method :=
  match key with
  | Some (Py.Int n) => EXIF_TRANSPOSE_MAPPINGS !! n
  | _ => None
  end.

Module Thumbnailer.

Definition FORMATS : gmap string string :=
  list_to_map [("image/jpeg", "JPEG"); ("image/png", "PNG")].

(** The attributes of an instance. *)
Record t : Type := mk {
  image : Image.t;
  width : Z;
  height : Z;
  transpose_method : option Image.Method
}.

Definition set_transpose_method (self : t) (m : option Image.Method) : t :=
  {| image := image self; width := width self; height := height self;
     transpose_method := m |}.

Definition __init__ (files : gmap string Image.t) (input_path : string)
  : Py.M t :=
  image ← Image.open files input_path;
  let '(width, height) := Image.size image in
  let self := {| image := image; width := width; height := height;
                 transpose_method := None |} in
  Py.try_except
    (image_exif ← Image._getexif image;
     match image_exif with
     | Some d =>
         let image_orientation := d !! EXIF_ORIENTATION_TAG in
         mret (set_transpose_method self
                 (EXIF_TRANSPOSE_MAPPINGS_get image_orientation))
     | None => mret self
     end)
    (λ e,
       Py.logger_info "Error parsing image EXIF information: %s" e;;
       mret self).

(** Returns the size and the instance after the call. *)
Definition transpose (self : t) : (Z * Z) * t :=
  match transpose_method self with
  | Some m =>
      let image := Image.transpose (image self) m in
      let '(width, height) := Image.size image in
      let image := Image.set_info_exif image None in
      (Image.size image,
       {| image := image; width := width; height := height;
          transpose_method := None |})
  | None => (Image.size (image self), self)
  end.

Definition aspect (self : t) (max_width max_height : Z) : Py.M (Z * Z) :=
  if max_width * height self <? max_height * width self
  then
    h ← Py.floordiv (max_width * height self) (width self);
    mret (max_width, h)
  else
    w ← Py.floordiv (max_height * width self) (height self);
    mret (w, max_height).

Definition _encode_image (output_image : Image.t) (output_type : string)
  : Py.M Image.BytesIO :=
  let output_bytes_io : Image.BytesIO := [] in
  fmt ← Py.getitem FORMATS output_type;
  Image.save output_image output_bytes_io fmt 80.

Definition scale (self : t) (width height : Z) (output_type : string)
  : Py.M Image.BytesIO :=
  scaled ← Image.resize (image self) (width, height) Image.ANTIALIAS;
  _encode_image scaled output_type.

Definition crop (self : t) (width height : Z) (output_type : string)
  : Py.M Image.BytesIO :=
  cropped ←
    (if width * Thumbnailer.height self >? height * Thumbnailer.width self
     then
       scaled_height ←
         Py.floordiv (width * Thumbnailer.height self) (Thumbnailer.width self);
       scaled_image ←
         Image.resize (image self) (width, scaled_height) Image.ANTIALIAS;
       let crop_top := (scaled_height - height) / 2 in
       let crop_bottom := height + crop_top in
       mret (Image.crop scaled_image (0, crop_top, width, crop_bottom))
     else
       scaled_width ←
         Py.floordiv (height * Thumbnailer.width self) (Thumbnailer.height self);
       scaled_image ←
         Image.resize (image self) (scaled_width, height) Image.ANTIALIAS;
       let crop_left := (scaled_width - width) / 2 in
       let crop_right := width + crop_left in
       mret (Image.crop scaled_image (crop_left, 0, crop_right, height)));
  _encode_image cropped output_type.

End Thumbnailer.

(** ** Fixtures: concrete sources used by the examples *)

(** A decoded RGB file of the given size whose EXIF reader behaves as
    [exif]. *)
Definition decoded (w h : Z) (exif : Image.Getexif) : Image.t :=
  {| Image.raster := Image.Decoded w h;
     Image.mode := Image.MRGB;
     Image.info_exif := None;
     Image.getexif := exif |}.

(** A decoded RGB file carrying an EXIF block with the given orientation
    value (the raw block is kept in [info["exif"]]). *)
Definition tagged (w h : Z) (orientation : Py.Value) : Image.t :=
  {| Image.raster := Image.Decoded w h;
     Image.mode := Image.MRGB;
     Image.info_exif := Some (Some [77; 77; 0; 42]);
     Image.getexif :=
       Image.GetexifReturns (Some {[ EXIF_ORIENTATION_TAG := orientation ]}) |}.

(** The instance [__init__] builds from an untagged file of size [(w, h)]. *)
Definition plain (w h : Z) : Thumbnailer.t :=
  {| Thumbnailer.image := decoded w h (Image.GetexifReturns None);
     Thumbnailer.width := w;
     Thumbnailer.height := h;
     Thumbnailer.transpose_method := None |}.



(** The size the docstring of [crop] gives for the resized image, for a
    source of [(W, H)] and a target of [(w, h)]. *)
Definition scaled_size (W H w h : Z) : Z * Z :=
  (Z.max w (h * W / H), Z.max h (w * H / W)).

(** ** Proof support *)

Ltac py_unfold :=
  unfold mbind, M_bind, mret, M_ret, Py.bind, Py.ret, Py.raise in *.

Lemma plain_is_constructed (w h : Z) (path : string) :
  Thumbnailer.__init__ {[ path := decoded w h (Image.GetexifReturns None) ]} path
  = ([], Py.Ok (plain w h)).
Proof.
  unfold Thumbnailer.__init__, Image.open.
  rewrite lookup_singleton_eq. reflexivity.
Qed.

Lemma floordiv_nonzero (a b : Z) :
  b ≠ 0 → Py.floordiv a b = ([], Py.Ok (a / b)).
Proof.
  intros Hb. unfold Py.floordiv.
  destruct (Z.eqb_spec b 0) as [->|_]; [contradiction | reflexivity].
Qed.

(** Floor division against a cross product, the two facts the geometry
    rests on. *)
Lemma div_below (a b q : Z) : 0 < b → a < q * b → a / b < q.
Proof. intros Hb Hlt. apply Z.div_lt_upper_bound; lia. Qed.

Lemma div_at_most (a b q : Z) : 0 < b → a ≤ q * b → a / b ≤ q.
Proof. intros Hb Hle. apply Z.div_le_upper_bound; lia. Qed.

Lemma div_at_least (a b q : Z) : 0 < b → q * b ≤ a → q ≤ a / b.
Proof. intros Hb Hle. apply Z.div_le_lower_bound; lia. Qed.

Section Aspect.

Import Thumbnailer.
Implicit Types (self : Thumbnailer.t) (max_width max_height : Z).

(** On a source with positive sides no division fails, and [aspect]
    returns the pair of the branch its comparison selects. *)
Lemma aspect_positive self max_width max_height :
  0 < width self → 0 < height self →
  aspect self max_width max_height
  = ([], Py.Ok
       (if max_width * height self <? max_height * width self
        then (max_width, max_width * height self / width self)
        else (max_height * width self / height self, max_height))).
Proof.
  intros HW HH. unfold aspect.
  destruct (max_width * height self <? max_height * width self).
  - rewrite floordiv_nonzero by lia. reflexivity.
  - rewrite floordiv_nonzero by lia. reflexivity.
Qed.

(** C1. For positive [max_width], [max_height] and a source with positive
    width and height, [aspect] returns a pair [(w_out, h_out)] with
    [w_out <= max_width], [h_out <= max_height] and one of them equal to
    its bound. *)
Theorem aspect_fits_box self max_width max_height :
  0 < max_width → 0 < max_height →
  0 < width self → 0 < height self →
  ∃ w_out h_out,
    aspect self max_width max_height = ([], Py.Ok (w_out, h_out))
    ∧ w_out ≤ max_width
    ∧ h_out ≤ max_height
    ∧ (w_out = max_width ∨ h_out = max_height).
Proof.
  intros Hmw Hmh HW HH.
  rewrite aspect_positive by assumption.
  destruct (Z.ltb_spec (max_width * height self) (max_height * width self))
    as [Hlt|Hge].
  - exists max_width, (max_width * height self / width self).
    repeat split; [lia | | now left].
    apply Z.lt_le_incl, div_below; assumption.
  - exists (max_height * width self / height self), max_height.
    repeat split; [ | lia | now right].
    apply div_at_most; [assumption | lia].
Qed.

Lemma aspect_fits_box_witness :
  ∃ w_out h_out,
    aspect (plain 640 480) 320 200 = ([], Py.Ok (w_out, h_out))
    ∧ w_out ≤ 320 ∧ h_out ≤ 200 ∧ (w_out = 320 ∨ h_out = 200).
Proof. apply (aspect_fits_box (plain 640 480) 320 200); simpl; lia. Defined.

(** C2. On a source with positive sides and a positive box, [aspect] returns
    [(max_width, (max_width * height) // width)] when
    [max_width * height < max_height * width] and
    [((max_height * width) // height, max_height)] otherwise; equality in
    the comparison goes to the second, height-constrained pair; and when the
    comparison is strictly the other way round the pair returned is not the
    width-constrained one. *)
Theorem aspect_decision_rule self max_width max_height :
  0 < max_width → 0 < max_height →
  0 < width self → 0 < height self →
  (max_width * height self < max_height * width self →
   aspect self max_width max_height
   = ([], Py.Ok (max_width, max_width * height self / width self)))
  ∧ (¬ max_width * height self < max_height * width self →
     aspect self max_width max_height
     = ([], Py.Ok (max_height * width self / height self, max_height)))
  ∧ (max_width * height self = max_height * width self →
     aspect self max_width max_height
     = ([], Py.Ok (max_height * width self / height self, max_height)))
  ∧ (max_height * width self < max_width * height self →
     aspect self max_width max_height
     ≠ ([], Py.Ok (max_width, max_width * height self / width self))).
Proof.
  intros Hmw Hmh HW HH.
  rewrite aspect_positive by assumption.
  destruct (Z.ltb_spec (max_width * height self) (max_height * width self))
    as [Hlt|Hge].
  - split; [reflexivity | ]. split; [ | split]; intros; lia.
  - split; [intros; lia | ]. split; [reflexivity | ]. split; [reflexivity | ].
    intros Hgt Heq. injection Heq as Hw _.
    assert (max_height * width self / height self < max_width)
      by (apply div_below; lia).
    lia.
Qed.

Lemma aspect_decision_rule_witness :
  (320 * 480 < 200 * 640 →
   aspect (plain 640 480) 320 200 = ([], Py.Ok (320, 320 * 480 / 640)))
  ∧ (¬ 320 * 480 < 200 * 640 →
     aspect (plain 640 480) 320 200 = ([], Py.Ok (200 * 640 / 480, 200)))
  ∧ (320 * 480 = 200 * 640 →
     aspect (plain 640 480) 320 200 = ([], Py.Ok (200 * 640 / 480, 200)))
  ∧ (200 * 640 < 320 * 480 →
     aspect (plain 640 480) 320 200 ≠ ([], Py.Ok (320, 320 * 480 / 640))).
Proof. apply (aspect_decision_rule (plain 640 480) 320 200); simpl; lia. Defined.

(** C7, as the code behaves. On a source of [(640, 480)], [aspect(200, 200)]
    takes the width-constrained branch, because [200*480 = 96000] is below
    [200*640 = 128000], and returns [(200, (200*480) // 640) = (200, 150)]. *)
Theorem aspect_640_480_in_200_200 self :
  width self = 640 → height self = 480 →
  (200 * height self <? 200 * width self) = true
  ∧ aspect self 200 200 = ([], Py.Ok (200, 200 * 480 / 640))
  ∧ aspect self 200 200 = ([], Py.Ok (200, 150)).
Proof.
  intros HW HH. unfold aspect. rewrite HW, HH. repeat split.
Qed.

Lemma aspect_640_480_in_200_200_witness :
  (200 * height (plain 640 480) <? 200 * width (plain 640 480)) = true
  ∧ aspect (plain 640 480) 200 200 = ([], Py.Ok (200, 200 * 480 / 640))
  ∧ aspect (plain 640 480) 200 200 = ([], Py.Ok (200, 150)).
Proof. apply (aspect_640_480_in_200_200 (plain 640 480)); reflexivity. Defined.

(** C7, as stated, fails: the pair [(266, 200)] of the height-constrained
    branch is not what [aspect(200, 200)] returns on a [(640, 480)] source,
    and the comparison [200*480 < 200*640] is not false. *)
Lemma aspect_640_480_not_266_200 :
  aspect (plain 640 480) 200 200 ≠ ([], Py.Ok (200 * 640 / 480, 200))
  ∧ aspect (plain 640 480) 200 200 ≠ ([], Py.Ok (266, 200))
  ∧ (200 * 480 <? 200 * 640) ≠ false.
Proof. repeat split; discriminate. Qed.

(** C9. Positive inputs do not guarantee positive outputs: a [(640, 480)]
    source with [aspect(1, 1000)] yields [(1, 0)]. *)
Theorem aspect_can_return_zero :
  aspect (plain 640 480) 1 1000 = ([], Py.Ok (1, 0))
  ∧ ∃ self max_width max_height w_out h_out,
      0 < width self ∧ 0 < height self ∧ 0 < max_width ∧ 0 < max_height
      ∧ aspect self max_width max_height = ([], Py.Ok (w_out, h_out))
      ∧ (w_out = 0 ∨ h_out = 0).
Proof.
  split; [reflexivity | ].
  exists (plain 640 480), 1, 1000, 1, 0.
  repeat split; simpl; lia.
Qed.

(** C10. [aspect] does not clamp to the source size: on a source with
    positive sides, [aspect(2*width, 2*height)] returns
    [(2*width, 2*height)]. *)
Theorem aspect_upscales self :
  0 < width self → 0 < height self →
  aspect self (2 * width self) (2 * height self)
  = ([], Py.Ok (2 * width self, 2 * height self)).
Proof.
  intros HW HH. rewrite aspect_positive by assumption.
  destruct (Z.ltb_spec (2 * width self * height self)
                       (2 * height self * width self)) as [Hlt|_]; [lia | ].
  replace (2 * height self * width self) with (2 * width self * height self)
    by lia.
  rewrite Z.div_mul by lia. reflexivity.
Qed.

Lemma aspect_upscales_witness :
  aspect (plain 640 480) 1280 960 = ([], Py.Ok (1280, 960)).
Proof. apply (aspect_upscales (plain 640 480)); simpl; lia. Defined.

End Aspect.


Section Orientation.

Import Thumbnailer.
Implicit Types (self : Thumbnailer.t) (im : Image.t).

(** Only the orientation values 2..8 have an entry in the table. *)
Lemma mappings_out_of_range (n : Z) :
  n < 2 ∨ 8 < n → EXIF_TRANSPOSE_MAPPINGS !! n = None.
Proof.
  intros Hn. unfold EXIF_TRANSPOSE_MAPPINGS. simpl.
  repeat (rewrite lookup_insert_ne by lia). apply lookup_empty.
Qed.

Lemma transpose_without_method self :
  transpose_method self = None →
  transpose self = (Image.size (image self), self).
Proof. intros Hnone. unfold transpose. now rewrite Hnone. Qed.

Lemma transpose_with_method self m :
  transpose_method self = Some m →
  transpose self
  = (Image.size (Image.transpose (image self) m),
     {| image := Image.set_info_exif (Image.transpose (image self) m) None;
        width := (Image.size (Image.transpose (image self) m)).1;
        height := (Image.size (Image.transpose (image self) m)).2;
        transpose_method := None |}).
Proof.
  intros Hm. unfold transpose. rewrite Hm.
  unfold Image.size. simpl.
  destruct (Image.raster_size (Image.raster (image self))) as [w h].
  destruct (Image.swaps_axes m); reflexivity.
Qed.

Lemma transpose_clears_method self :
  transpose_method (transpose self).2 = None.
Proof.
  destruct (transpose_method self) as [m|] eqn:Hm.
  - rewrite (transpose_with_method _ _ Hm). reflexivity.
  - rewrite (transpose_without_method _ Hm). exact Hm.
Qed.

(** C4. A second [transpose()] right after the first returns the same
    [(width, height)] and leaves the instance, raster included, as the first
    call left it; the same holds for any number of further calls, and the
    stored raster is the original one with the pending transform applied at
    most once. *)
Theorem transpose_idempotent self :
  (transpose (transpose self).2).1 = (transpose self).1
  ∧ (transpose (transpose self).2).2 = (transpose self).2
  ∧ (∀ n : nat,
       Nat.iter n (λ s, (transpose s).2) (transpose self).2
       = (transpose self).2)
  ∧ Image.raster (image (transpose self).2)
    = match transpose_method self with
      | Some m => Image.Transposed m (Image.raster (image self))
      | None => Image.raster (image self)
      end.
Proof.
  pose proof (transpose_clears_method self) as Hclear.
  pose proof (transpose_without_method _ Hclear) as Hsecond.
  split; [ | split; [ | split]].
  - rewrite Hsecond. simpl.
    destruct (transpose_method self) as [m|] eqn:Hm.
    + rewrite (transpose_with_method _ _ Hm). reflexivity.
    + rewrite (transpose_without_method _ Hm). reflexivity.
  - rewrite Hsecond. reflexivity.
  - induction n as [|n IH]; simpl; [reflexivity | ].
    rewrite IH, Hsecond. reflexivity.
  - destruct (transpose_method self) as [m|] eqn:Hm.
    + rewrite (transpose_with_method _ _ Hm). reflexivity.
    + rewrite (transpose_without_method _ Hm). reflexivity.
Qed.

(** C8. A source of [(100, 50)] whose orientation tag is 6 gets the
    [ROTATE_270] transform pending at construction, and [transpose()] applies
    it and returns [(50, 100)]: width and height are exchanged. *)
Theorem transpose_tag_6 (files : gmap string Image.t) (input_path : string)
    im (exif : gmap Z Py.Value) :
  files !! input_path = Some im →
  Image.size im = (100, 50) →
  Image.getexif im = Image.GetexifReturns (Some exif) →
  exif !! EXIF_ORIENTATION_TAG = Some (Py.Int 6) →
  ∃ self,
    __init__ files input_path = ([], Py.Ok self)
    ∧ transpose_method self = Some Image.ROTATE_270
    ∧ (transpose self).1 = (50, 100)
    ∧ (width (transpose self).2, height (transpose self).2) = (50, 100)
    ∧ Image.raster (image (transpose self).2)
      = Image.Transposed Image.ROTATE_270 (Image.raster im).
Proof.
  intros Hfile Hsize Hexif Htag.
  unfold __init__, Image.open. rewrite Hfile. py_unfold. simpl.
  rewrite Hsize. unfold Image._getexif. rewrite Hexif. simpl.
  rewrite Htag. simpl.
  eexists. split; [reflexivity | ].
  split; [reflexivity | ].
  unfold transpose, Image.size in *. simpl. rewrite Hsize. simpl.
  repeat split.
Qed.

Lemma transpose_tag_6_witness :
  ∃ self,
    __init__ {[ "photo.jpg" := tagged 100 50 (Py.Int 6) ]} "photo.jpg"
    = ([], Py.Ok self)
    ∧ transpose_method self = Some Image.ROTATE_270
    ∧ (transpose self).1 = (50, 100)
    ∧ (width (transpose self).2, height (transpose self).2) = (50, 100)
    ∧ Image.raster (image (transpose self).2)
      = Image.Transposed Image.ROTATE_270
          (Image.raster (tagged 100 50 (Py.Int 6))).
Proof.
  apply (transpose_tag_6 {[ "photo.jpg" := tagged 100 50 (Py.Int 6) ]}
           "photo.jpg" (tagged 100 50 (Py.Int 6))
           {[ EXIF_ORIENTATION_TAG := Py.Int 6 ]});
    reflexivity.
Defined.

(** What [__init__] does on a path that decodes, by the behaviour of the
    image's EXIF reader. *)
Lemma init_decodable (files : gmap string Image.t) (input_path : string) im :
  files !! input_path = Some im →
  __init__ files input_path
  = let self := {| image := im;
                   width := (Image.size im).1;
                   height := (Image.size im).2;
                   transpose_method := None |} in
    match Image.getexif im with
    | Image.GetexifRaises e =>
        if Py.is_Exception e
        then ([Py.mkLog Py.INFO "Error parsing image EXIF information: %s" e],
              Py.Ok self)
        else ([], Py.Raise e)
    | Image.GetexifReturns None => ([], Py.Ok self)
    | Image.GetexifReturns (Some exif) =>
        ([], Py.Ok (set_transpose_method self
                      (EXIF_TRANSPOSE_MAPPINGS_get
                         (exif !! EXIF_ORIENTATION_TAG))))
    end.
Proof.
  intros Hfile.
  unfold __init__, Image.open. rewrite Hfile. py_unfold. simpl.
  destruct (Image.size im) as [w h].
  unfold Image._getexif, Py.try_except.
  destruct (Image.getexif im) as [e|[exif|]]; simpl; [ | reflexivity..].
  destruct (Py.is_Exception e); reflexivity.
Qed.

(** C5. Construction from a file that decodes never raises because of its
    orientation metadata.  Whatever error reading the EXIF block raises is
    caught, logged once at level INFO and leaves no transform pending; an
    absent block, an absent tag, a value that is not a number and a number
    outside 2..8 leave no transform pending either.  With no transform
    pending the instance behaves as an untagged one: [transpose()] returns
    the size of the decoded image and changes nothing. *)
Theorem init_survives_bad_exif (files : gmap string Image.t)
    (input_path : string) im :
  files !! input_path = Some im →
  (∀ e, Image.getexif im = Image.GetexifRaises e → Py.is_Exception e = true) →
  ∃ log self,
    __init__ files input_path = (log, Py.Ok self)
    ∧ image self = im
    ∧ (width self, height self) = Image.size im
    ∧ (∀ e, Image.getexif im = Image.GetexifRaises e →
         log = [Py.mkLog Py.INFO "Error parsing image EXIF information: %s" e]
         ∧ transpose_method self = None)
    ∧ (Image.getexif im = Image.GetexifReturns None →
         log = [] ∧ transpose_method self = None)
    ∧ (∀ exif : gmap Z Py.Value,
         Image.getexif im = Image.GetexifReturns (Some exif) →
         log = []
         ∧ transpose_method self
           = EXIF_TRANSPOSE_MAPPINGS_get (exif !! EXIF_ORIENTATION_TAG)
         ∧ ((∀ n, exif !! EXIF_ORIENTATION_TAG = Some (Py.Int n) →
                  n < 2 ∨ 8 < n) →
            transpose_method self = None))
    ∧ (transpose_method self = None →
         transpose self = (Image.size im, self)).
Proof.
  intros Hfile Hexc.
  rewrite (init_decodable _ _ _ Hfile).
  destruct (Image.getexif im) as [e|[exif|]] eqn:Hexif.
  - rewrite (Hexc e eq_refl).
    eexists _, _. split; [reflexivity | ]. simpl.
    split; [reflexivity | ]. split; [symmetry; apply surjective_pairing | ].
    split; [intros e' [= <-]; split; reflexivity | ].
    split; [discriminate | ]. split; [discriminate | ].
    intros _. reflexivity.
  - eexists _, _. split; [reflexivity | ]. simpl.
    split; [reflexivity | ]. split; [symmetry; apply surjective_pairing | ].
    split; [discriminate | ]. split; [discriminate | ].
    split.
    + intros exif' [= <-]. split; [reflexivity | ]. split; [reflexivity | ].
      intros Hbad.
      destruct (exif !! EXIF_ORIENTATION_TAG) as [[n| | |]|] eqn:Htag;
        simpl; try reflexivity.
      apply mappings_out_of_range, Hbad. reflexivity.
    + intros Hnone. unfold transpose. simpl. now rewrite Hnone.
  - eexists _, _. split; [reflexivity | ]. simpl.
    split; [reflexivity | ]. split; [symmetry; apply surjective_pairing | ].
    split; [discriminate | ]. split; [intros _; split; reflexivity | ].
    split; [discriminate | ].
    intros _. reflexivity.
Qed.

Lemma init_survives_bad_exif_witness :
  let im := decoded 640 480 (Image.GetexifRaises (Py.SyntaxError "not a TIFF file")) in
  ∃ log self,
    __init__ {[ "photo.jpg" := im ]} "photo.jpg" = (log, Py.Ok self)
    ∧ image self = im
    ∧ (width self, height self) = Image.size im
    ∧ (∀ e, Image.getexif im = Image.GetexifRaises e →
         log = [Py.mkLog Py.INFO "Error parsing image EXIF information: %s" e]
         ∧ transpose_method self = None)
    ∧ (Image.getexif im = Image.GetexifReturns None →
         log = [] ∧ transpose_method self = None)
    ∧ (∀ exif : gmap Z Py.Value,
         Image.getexif im = Image.GetexifReturns (Some exif) →
         log = []
         ∧ transpose_method self
           = EXIF_TRANSPOSE_MAPPINGS_get (exif !! EXIF_ORIENTATION_TAG)
         ∧ ((∀ n, exif !! EXIF_ORIENTATION_TAG = Some (Py.Int n) →
                  n < 2 ∨ 8 < n) →
            transpose_method self = None))
    ∧ (transpose_method self = None →
         transpose self = (Image.size im, self)).
Proof.
  intros im.
  apply (init_survives_bad_exif {[ "photo.jpg" := im ]} "photo.jpg" im).
  - reflexivity.
  - intros e [= <-]. reflexivity.
Defined.

(** The handler is [except Exception]: what is raised outside that class
    while the EXIF block is read leaves the constructor. *)
Lemma init_lets_base_exceptions_through (files : gmap string Image.t)
    (input_path : string) im e :
  files !! input_path = Some im →
  Image.getexif im = Image.GetexifRaises e →
  Py.is_Exception e = false →
  __init__ files input_path = ([], Py.Raise e).
Proof.
  intros Hfile Hexif Hbase.
  rewrite (init_decodable _ _ _ Hfile), Hexif, Hbase. reflexivity.
Qed.

(** A path that does not decode fails before any metadata is read. *)
Lemma init_undecodable (files : gmap string Image.t) (input_path : string) :
  files !! input_path = None →
  __init__ files input_path
  = ([], Py.Raise (Py.IOError "cannot identify image file")).
Proof.
  intros Hfile. unfold __init__, Image.open. now rewrite Hfile.
Qed.

End Orientation.


Section Encoding.

Import Thumbnailer.
Implicit Types (self : Thumbnailer.t) (im : Image.t) (output_type : string).

Lemma FORMATS_unsupported output_type :
  output_type ≠ "image/jpeg" → output_type ≠ "image/png" →
  FORMATS !! output_type = None.
Proof.
  intros Hjpeg Hpng. unfold FORMATS. simpl.
  rewrite !lookup_insert_ne by congruence. apply lookup_empty.
Qed.

Lemma FORMATS_supported output_type fmt :
  FORMATS !! output_type = Some fmt →
  (output_type = "image/jpeg" ∧ fmt = "JPEG")
  ∨ (output_type = "image/png" ∧ fmt = "PNG").
Proof.
  unfold FORMATS. simpl. intros Hlook.
  destruct (decide (output_type = "image/jpeg")) as [->|Hjpeg].
  - rewrite lookup_insert_eq in Hlook. left. split; congruence.
  - rewrite lookup_insert_ne in Hlook by congruence.
    destruct (decide (output_type = "image/png")) as [->|Hpng].
    + rewrite lookup_insert_eq in Hlook. right. split; congruence.
    + rewrite lookup_insert_ne, lookup_empty in Hlook by congruence.
      discriminate.
Qed.

Lemma encode_unsupported im output_type :
  FORMATS !! output_type = None →
  _encode_image im output_type = ([], Py.Raise (Py.KeyError output_type)).
Proof.
  intros Hnone. unfold _encode_image, Py.getitem. rewrite Hnone. reflexivity.
Qed.

Lemma encode_supported im output_type fmt :
  FORMATS !! output_type = Some fmt →
  Image.encoder_error fmt (Image.mode im) (Image.size im) = None →
  _encode_image im output_type = ([], Py.Ok [Image.mkEncoded fmt 80 im]).
Proof.
  intros Hsome Hwrites. unfold _encode_image, Py.getitem, Image.save.
  rewrite Hsome. py_unfold. rewrite Hwrites. reflexivity.
Qed.

Lemma encode_refused im output_type fmt e :
  FORMATS !! output_type = Some fmt →
  Image.encoder_error fmt (Image.mode im) (Image.size im) = Some e →
  _encode_image im output_type = ([], Py.Raise e).
Proof.
  intros Hsome Hrefuses. unfold _encode_image, Py.getitem, Image.save.
  rewrite Hsome. py_unfold. rewrite Hrefuses. reflexivity.
Qed.

(** A writer that takes a size takes every smaller size of at least one
    pixel a side. *)
Lemma encoder_takes_smaller (fmt : string) (m : Image.Mode) (w h w' h' : Z) :
  Image.encoder_error fmt m (w, h) = None →
  1 ≤ w' ≤ w → 1 ≤ h' ≤ h →
  Image.encoder_error fmt m (w', h') = None.
Proof.
  unfold Image.encoder_error, Image.JPEG_MAX_DIMENSION. intros Hbig Hw Hh.
  destruct (String.eqb fmt "JPEG").
  - destruct (negb (Image.jpeg_rawmode m)); [discriminate | ].
    destruct (Z.ltb_spec w 1), (Z.ltb_spec h 1); try discriminate.
    destruct (Z.ltb_spec 65500 w), (Z.ltb_spec 65500 h); try discriminate.
    destruct (Z.ltb_spec w' 1), (Z.ltb_spec h' 1); try lia.
    destruct (Z.ltb_spec 65500 w'), (Z.ltb_spec 65500 h'); try lia.
    reflexivity.
  - destruct (String.eqb fmt "PNG"); [ | discriminate].
    destruct (negb (Image.png_outmode m)); [discriminate | ].
    destruct (Z.ltb_spec w' 1), (Z.ltb_spec h' 1); try lia.
    reflexivity.
Qed.

Lemma resize_positive im (w h : Z) (f : Image.Filter) :
  0 < w → 0 < h →
  Image.resize im (w, h) f
  = ([], Py.Ok (Image.derive im (Image.Resized w h f (Image.raster im)))).
Proof.
  intros Hw Hh. unfold Image.resize.
  destruct (Z.ltb_spec w 1); [lia | ].
  destruct (Z.ltb_spec h 1); [lia | ]. reflexivity.
Qed.

(** Sequencing after a computation that returned without logging. *)
Lemma bind_returned {A B} (a : A) (k : A → Py.M B) :
  mbind k (([], Py.Ok a) : Py.M A) = k a.
Proof. py_unfold. destruct (k a). reflexivity. Qed.

Lemma bind_mret {A B} (a : A) (k : A → Py.M B) :
  mbind k (mret a : Py.M A) = k a.
Proof. apply bind_returned. Qed.

(** [crop] on a source with positive sides and a positive target, when the
    vertical excess is cut. *)
Lemma crop_tall self (w h : Z) output_type :
  0 < width self → 0 < height self → 0 < w → 0 < h →
  h * width self < w * height self →
  h ≤ w * height self / width self
  ∧ crop self w h output_type
    = _encode_image
        (Image.derive (image self)
           (Image.Cropped 0 ((w * height self / width self - h) / 2)
              w (h + (w * height self / width self - h) / 2)
              (Image.Resized w (w * height self / width self) Image.ANTIALIAS
                 (Image.raster (image self)))))
        output_type.
Proof.
  intros HW HH Hw Hh Hgt.
  assert (h ≤ w * height self / width self) as Hcover
    by (apply div_at_least; lia).
  split; [exact Hcover | ].
  unfold crop.
  destruct (Z.gtb_spec (w * height self) (h * width self)); [ | lia].
  rewrite floordiv_nonzero, bind_returned by lia.
  rewrite resize_positive, bind_returned by lia.
  rewrite bind_mret. reflexivity.
Qed.

(** The same when the horizontal excess is cut. *)
Lemma crop_wide self (w h : Z) output_type :
  0 < width self → 0 < height self → 0 < w → 0 < h →
  w * height self ≤ h * width self →
  w ≤ h * width self / height self
  ∧ crop self w h output_type
    = _encode_image
        (Image.derive (image self)
           (Image.Cropped ((h * width self / height self - w) / 2) 0
              (w + (h * width self / height self - w) / 2) h
              (Image.Resized (h * width self / height self) h Image.ANTIALIAS
                 (Image.raster (image self)))))
        output_type.
Proof.
  intros HW HH Hw Hh Hle.
  assert (w ≤ h * width self / height self) as Hcover
    by (apply div_at_least; lia).
  split; [exact Hcover | ].
  unfold crop.
  destruct (Z.gtb_spec (w * height self) (h * width self)); [lia | ].
  rewrite floordiv_nonzero, bind_returned by lia.
  rewrite resize_positive, bind_returned by lia.
  rewrite bind_mret. reflexivity.
Qed.

(** Centring a window of [target] pixels in [scaled >= target] pixels with
    floor division: the leading margin is the smaller one, by at most one. *)
Lemma centred_margins (scaled target : Z) :
  target ≤ scaled →
  let lead := (scaled - target) / 2 in
  0 ≤ lead
  ∧ target + lead ≤ scaled
  ∧ lead ≤ scaled - (target + lead) ≤ lead + 1.
Proof.
  intros Hle lead.
  pose proof (Z.div_mod (scaled - target) 2 ltac:(lia)) as Hdm.
  pose proof (Z.mod_pos_bound (scaled - target) 2 ltac:(lia)) as Hmod.
  fold lead in Hdm. lia.
Qed.

(** [crop] when the writer takes the source's mode at the target's size. *)
Lemma crop_tall_writes self (w h : Z) output_type (fmt : string) :
  0 < width self → 0 < height self → 0 < w → 0 < h →
  h * width self < w * height self →
  FORMATS !! output_type = Some fmt →
  Image.encoder_error fmt (Image.mode (image self)) (w, h) = None →
  h ≤ w * height self / width self
  ∧ crop self w h output_type
    = ([], Py.Ok
         [Image.mkEncoded fmt 80
            (Image.derive (image self)
               (Image.Cropped 0 ((w * height self / width self - h) / 2)
                  w (h + (w * height self / width self - h) / 2)
                  (Image.Resized w (w * height self / width self)
                     Image.ANTIALIAS (Image.raster (image self)))))]).
Proof.
  intros HW HH Hw Hh Hgt Hfmt Hwrites.
  destruct (crop_tall self w h output_type HW HH Hw Hh Hgt) as [Hcover ->].
  split; [exact Hcover | ].
  apply encode_supported; [exact Hfmt | ].
  unfold Image.size. simpl.
  replace (Z.max 0 (w - 0)) with w by lia.
  replace (Z.max 0 (h + (w * height self / width self - h) / 2
                    - (w * height self / width self - h) / 2)) with h by lia.
  exact Hwrites.
Qed.

Lemma crop_wide_writes self (w h : Z) output_type (fmt : string) :
  0 < width self → 0 < height self → 0 < w → 0 < h →
  w * height self ≤ h * width self →
  FORMATS !! output_type = Some fmt →
  Image.encoder_error fmt (Image.mode (image self)) (w, h) = None →
  w ≤ h * width self / height self
  ∧ crop self w h output_type
    = ([], Py.Ok
         [Image.mkEncoded fmt 80
            (Image.derive (image self)
               (Image.Cropped ((h * width self / height self - w) / 2) 0
                  (w + (h * width self / height self - w) / 2) h
                  (Image.Resized (h * width self / height self) h
                     Image.ANTIALIAS (Image.raster (image self)))))]).
Proof.
  intros HW HH Hw Hh Hle Hfmt Hwrites.
  destruct (crop_wide self w h output_type HW HH Hw Hh Hle) as [Hcover ->].
  split; [exact Hcover | ].
  apply encode_supported; [exact Hfmt | ].
  unfold Image.size. simpl.
  replace (Z.max 0 (w + (h * width self / height self - w) / 2
                    - (h * width self / height self - w) / 2)) with w by lia.
  replace (Z.max 0 (h - 0)) with h by lia.
  exact Hwrites.
Qed.

(** [scale] when the writer takes the source's mode at the requested
    size. *)
Lemma scale_writes self (w h : Z) output_type (fmt : string) :
  1 ≤ w → 1 ≤ h →
  FORMATS !! output_type = Some fmt →
  Image.encoder_error fmt (Image.mode (image self)) (w, h) = None →
  scale self w h output_type
  = ([], Py.Ok
       [Image.mkEncoded fmt 80
          (Image.derive (image self)
             (Image.Resized w h Image.ANTIALIAS (Image.raster (image self))))]).
Proof.
  intros Hw Hh Hfmt Hwrites. unfold scale.
  rewrite resize_positive, bind_returned by lia.
  apply encode_supported; [exact Hfmt | exact Hwrites].
Qed.




(** The worked case of a [(640, 480)] source cropped to [(100, 100)] as PNG:
    resized to [(133, 100)], then columns 16 to 116 are kept. *)
Example crop_640_480_to_100_100 :
  crop (plain 640 480) 100 100 "image/png"
  = ([], Py.Ok [Image.mkEncoded "PNG" 80
                  (Image.derive (image (plain 640 480))
                     (Image.Cropped 16 0 116 100
                        (Image.Resized 133 100 Image.ANTIALIAS
                           (Image.Decoded 640 480))))]).
Proof. reflexivity. Qed.

(** C6. An output type other than [image/jpeg] and [image/png] makes the
    encoder fail on the format lookup, before anything is saved; so [scale]
    and [crop], called with positive sizes on a source with positive sides,
    raise that error and return no buffer, as [scale(100, 100, "image/gif")]
    does. *)
Theorem unsupported_format_rejected self (w h : Z) output_type :
  output_type ≠ "image/jpeg" → output_type ≠ "image/png" →
  0 < width self → 0 < height self → 0 < w → 0 < h →
  (∀ im, _encode_image im output_type
         = ([], Py.Raise (Py.KeyError output_type)))
  ∧ scale self w h output_type = ([], Py.Raise (Py.KeyError output_type))
  ∧ crop self w h output_type = ([], Py.Raise (Py.KeyError output_type))
  ∧ scale self 100 100 "image/gif" = ([], Py.Raise (Py.KeyError "image/gif")).
Proof.
  intros Hjpeg Hpng HW HH Hw Hh.
  pose proof (FORMATS_unsupported _ Hjpeg Hpng) as Hnone.
  split; [intros im; apply encode_unsupported, Hnone | ].
  split; [ | split].
  - unfold scale. rewrite resize_positive, bind_returned by lia.
    apply encode_unsupported, Hnone.
  - destruct (Z.lt_ge_cases (h * width self) (w * height self)) as [Hgt|Hle].
    + destruct (crop_tall self w h output_type HW HH Hw Hh Hgt) as [_ ->].
      apply encode_unsupported, Hnone.
    + destruct (crop_wide self w h output_type HW HH Hw Hh Hle) as [_ ->].
      apply encode_unsupported, Hnone.
  - unfold scale. rewrite resize_positive, bind_returned by lia.
    apply encode_unsupported. reflexivity.
Qed.

Lemma unsupported_format_rejected_witness :
  (∀ im, _encode_image im "image/gif" = ([], Py.Raise (Py.KeyError "image/gif")))
  ∧ scale (plain 640 480) 32 32 "image/gif"
    = ([], Py.Raise (Py.KeyError "image/gif"))
  ∧ crop (plain 640 480) 32 32 "image/gif"
    = ([], Py.Raise (Py.KeyError "image/gif"))
  ∧ scale (plain 640 480) 100 100 "image/gif"
    = ([], Py.Raise (Py.KeyError "image/gif")).
Proof.
  apply (unsupported_format_rejected (plain 640 480) 32 32 "image/gif");
    solve [discriminate | simpl; lia].
Defined.

(** Whatever the sizes and the source, an unsupported output type never
    yields a buffer: [scale] and [crop] end in an exception. *)
Lemma unsupported_never_encodes self (w h : Z) output_type :
  FORMATS !! output_type = None →
  (∃ e, scale self w h output_type = ([], Py.Raise e))
  ∧ (∃ e, crop self w h output_type = ([], Py.Raise e)).
Proof.
  intros Hnone. split.
  - unfold scale, Image.resize, Py.ret.
    destruct ((w <? 1) || (h <? 1)).
    + eexists. reflexivity.
    + rewrite bind_returned, (encode_unsupported _ _ Hnone).
      eexists. reflexivity.
  - unfold crop, Py.floordiv, Image.resize, Py.ret.
    destruct (w * height self >? h * width self).
    + destruct (width self =? 0); [eexists; reflexivity | ].
      rewrite bind_returned.
      destruct ((w <? 1) || (_ <? 1)); [eexists; reflexivity | ].
      rewrite bind_returned, bind_mret, (encode_unsupported _ _ Hnone).
      eexists. reflexivity.
    + destruct (height self =? 0); [eexists; reflexivity | ].
      rewrite bind_returned.
      destruct ((_ <? 1) || (h <? 1)); [eexists; reflexivity | ].
      rewrite bind_returned, bind_mret, (encode_unsupported _ _ Hnone).
      eexists. reflexivity.
Qed.

End Encoding.


(** ** Further properties of the fit geometry *)

Section FitGeometry.

Import Thumbnailer.
Implicit Types (self : Thumbnailer.t) (max_width max_height : Z).

(** X1. The docstring of [aspect] gives the result as two minima; with floor
    division that is what the branches compute, for any box, on a source
    with positive sides. *)
Theorem aspect_min_formula self max_width max_height :
  0 < width self → 0 < height self →
  aspect self max_width max_height
  = ([], Py.Ok (Z.min max_width (max_height * width self / height self),
                Z.min max_height (max_width * height self / width self))).
Proof.
  intros HW HH. rewrite aspect_positive by assumption.
  destruct (Z.ltb_spec (max_width * height self) (max_height * width self))
    as [Hlt|Hge].
  - assert (max_width ≤ max_height * width self / height self)
      by (apply div_at_least; lia).
    assert (max_width * height self / width self < max_height)
      by (apply div_below; lia).
    rewrite Z.min_l, Z.min_r by lia. reflexivity.
  - assert (max_height * width self / height self ≤ max_width)
      by (apply div_at_most; lia).
    assert (max_height ≤ max_width * height self / width self)
      by (apply div_at_least; lia).
    rewrite Z.min_r, Z.min_l by lia. reflexivity.
Qed.

Lemma aspect_min_formula_witness :
  aspect (plain 640 480) 320 200
  = ([], Py.Ok (Z.min 320 (200 * 640 / 480), Z.min 200 (320 * 480 / 640))).
Proof. apply (aspect_min_formula (plain 640 480) 320 200); simpl; lia. Defined.

(** X2. [aspect] returns the largest size of the source's ratio inside the
    box: every [(w, h)] within the box with [w * height = h * width] is
    within the pair returned. *)
Theorem aspect_largest_fit self max_width max_height (w h : Z) :
  0 < width self → 0 < height self →
  w ≤ max_width → h ≤ max_height →
  w * height self = h * width self →
  ∃ w_out h_out,
    aspect self max_width max_height = ([], Py.Ok (w_out, h_out))
    ∧ w ≤ w_out ∧ h ≤ h_out.
Proof.
  intros HW HH Hw Hh Hratio.
  rewrite aspect_min_formula by assumption.
  eexists _, _. split; [reflexivity | ].
  split; apply Z.min_glb; try assumption; apply div_at_least; try assumption; nia.
Qed.

Lemma aspect_largest_fit_witness :
  ∃ w_out h_out,
    aspect (plain 640 480) 320 200 = ([], Py.Ok (w_out, h_out))
    ∧ 64 ≤ w_out ∧ 48 ≤ h_out.
Proof.
  apply (aspect_largest_fit (plain 640 480) 320 200 64 48); simpl; lia.
Defined.

(** X3. For a positive box on a source with positive sides, the pair returned
    has no negative side, and it has a zero side exactly when the source is
    more than [max_width] times wider than tall or more than [max_height]
    times taller than wide. *)
Theorem aspect_zero_side_iff self max_width max_height :
  0 < max_width → 0 < max_height →
  0 < width self → 0 < height self →
  ∃ w_out h_out,
    aspect self max_width max_height = ([], Py.Ok (w_out, h_out))
    ∧ 0 ≤ w_out ∧ 0 ≤ h_out
    ∧ (w_out = 0 ∨ h_out = 0
       ↔ max_width * height self < width self
         ∨ max_height * width self < height self).
Proof.
  intros Hmw Hmh HW HH.
  rewrite aspect_min_formula by assumption.
  eexists _, _. split; [reflexivity | ].
  pose proof (Z.div_pos (max_height * width self) (height self)
                ltac:(nia) HH) as Hw0.
  pose proof (Z.div_pos (max_width * height self) (width self)
                ltac:(nia) HW) as Hh0.
  pose proof (Z.div_small_iff (max_height * width self) (height self)
                ltac:(lia)) as Hws.
  pose proof (Z.div_small_iff (max_width * height self) (width self)
                ltac:(lia)) as Hhs.
  split; [lia | ]. split; [lia | ].
  split.
  - intros [Hz|Hz].
    + right. assert (max_height * width self / height self = 0) as Hq by lia.
      apply Hws in Hq. nia.
    + left. assert (max_width * height self / width self = 0) as Hq by lia.
      apply Hhs in Hq. nia.
  - intros [Hs|Hs].
    + right. assert (max_width * height self / width self = 0) as Hq
        by (apply Hhs; left; nia).
      lia.
    + left. assert (max_height * width self / height self = 0) as Hq
        by (apply Hws; left; nia).
      lia.
Qed.

Lemma aspect_zero_side_iff_witness :
  ∃ w_out h_out,
    aspect (plain 640 480) 1 1000 = ([], Py.Ok (w_out, h_out))
    ∧ 0 ≤ w_out ∧ 0 ≤ h_out
    ∧ (w_out = 0 ∨ h_out = 0 ↔ 1 * 480 < 640 ∨ 1000 * 640 < 480).
Proof.
  apply (aspect_zero_side_iff (plain 640 480) 1 1000); simpl; lia.
Defined.

(** X4. A larger box never gives a smaller result: [aspect] is monotone in
    both sides of the box, component by component. *)
Theorem aspect_monotone self (w1 h1 w2 h2 : Z) :
  0 < width self → 0 < height self →
  w1 ≤ w2 → h1 ≤ h2 →
  ∃ a1 b1 a2 b2,
    aspect self w1 h1 = ([], Py.Ok (a1, b1))
    ∧ aspect self w2 h2 = ([], Py.Ok (a2, b2))
    ∧ a1 ≤ a2 ∧ b1 ≤ b2.
Proof.
  intros HW HH Hw Hh.
  rewrite !aspect_min_formula by assumption.
  eexists _, _, _, _. split; [reflexivity | ]. split; [reflexivity | ].
  assert (h1 * width self / height self ≤ h2 * width self / height self)
    by (apply Z.div_le_mono; nia).
  assert (w1 * height self / width self ≤ w2 * height self / width self)
    by (apply Z.div_le_mono; nia).
  lia.
Qed.

Lemma aspect_monotone_witness :
  ∃ a1 b1 a2 b2,
    aspect (plain 640 480) 100 100 = ([], Py.Ok (a1, b1))
    ∧ aspect (plain 640 480) 320 200 = ([], Py.Ok (a2, b2))
    ∧ a1 ≤ a2 ∧ b1 ≤ b2.
Proof.
  apply (aspect_monotone (plain 640 480) 100 100 320 200); simpl; lia.
Defined.

(** X5. A box of the source's own ratio is returned as it is, whether it is
    larger or smaller than the source; the source's own size is one such
    box. *)
Theorem aspect_same_ratio self max_width max_height :
  0 < width self → 0 < height self →
  max_width * height self = max_height * width self →
  aspect self max_width max_height = ([], Py.Ok (max_width, max_height))
  ∧ aspect self (width self) (height self)
    = ([], Py.Ok (width self, height self)).
Proof.
  intros HW HH Hratio.
  assert (∀ a b, a * height self = b * width self →
                 aspect self a b = ([], Py.Ok (a, b))) as Htie.
  { intros a b Hab. rewrite aspect_min_formula by assumption.
    rewrite <- Hab, Z.div_mul by lia.
    rewrite Hab, Z.div_mul by lia.
    rewrite !Z.min_id. reflexivity. }
  split; apply Htie; [assumption | lia].
Qed.

Lemma aspect_same_ratio_witness :
  aspect (plain 640 480) 64 48 = ([], Py.Ok (64, 48))
  ∧ aspect (plain 640 480) 640 480 = ([], Py.Ok (640, 480)).
Proof. apply (aspect_same_ratio (plain 640 480) 64 48); simpl; lia. Defined.

(** X6. Exchanging the axes of the source and of the box exchanges the sides
    of the result, ties included, although the two branches of [aspect] are
    not written symmetrically. *)
Theorem aspect_axes_exchanged self self' max_width max_height :
  0 < width self → 0 < height self →
  width self' = height self → height self' = width self →
  ∃ w_out h_out,
    aspect self max_width max_height = ([], Py.Ok (w_out, h_out))
    ∧ aspect self' max_height max_width = ([], Py.Ok (h_out, w_out)).
Proof.
  intros HW HH HW' HH'.
  rewrite (aspect_min_formula self) by assumption.
  rewrite (aspect_min_formula self') by lia.
  rewrite HW', HH'.
  eexists _, _. split; reflexivity.
Qed.

Lemma aspect_axes_exchanged_witness :
  ∃ w_out h_out,
    aspect (plain 640 480) 320 200 = ([], Py.Ok (w_out, h_out))
    ∧ aspect (plain 480 640) 200 320 = ([], Py.Ok (h_out, w_out)).
Proof.
  apply (aspect_axes_exchanged (plain 640 480) (plain 480 640) 320 200);
    simpl; lia.
Defined.

End FitGeometry.


(** ** Further properties of scaling and of fit followed by scaling *)

Section Scaling.

Import Thumbnailer.
Implicit Types (self : Thumbnailer.t) (im : Image.t) (output_type : string).

Lemma resize_empty im (w h : Z) (f : Image.Filter) :
  w < 1 ∨ h < 1 →
  Image.resize im (w, h) f
  = ([], Py.Raise (Py.ValueError "height and width must be > 0")).
Proof.
  intros Hempty. unfold Image.resize.
  destruct (Z.ltb_spec w 1); [reflexivity | ].
  destruct (Z.ltb_spec h 1); [reflexivity | lia].
Qed.

(** Sequencing after a computation that raised without logging. *)
Lemma bind_raised {A B} (e : Py.Exc) (k : A → Py.M B) :
  mbind k (([], Py.Raise e) : Py.M A) = ([], Py.Raise e).
Proof. reflexivity. Qed.

Lemma scale_rejects_empty_size_aux self (w h : Z) output_type :
  w < 1 ∨ h < 1 →
  scale self w h output_type
  = ([], Py.Raise (Py.ValueError "height and width must be > 0")).
Proof.
  intros Hempty. unfold scale.
  rewrite (resize_empty _ _ _ _ Hempty). apply bind_raised.
Qed.

(** X7. [scale] takes the requested size as it is, whatever the ratio of the
    source: for sides of at least one pixel within the library's pixel bound
    and a supported type whose writer takes the source's pixel mode at that
    size, it returns a buffer with one image, resized from the stored one
    with the antialiasing filter, of exactly that size and of the source's
    mode, in the format of the table at quality 80. *)
Theorem scale_exact_size self (w h : Z) output_type (fmt : string) :
  1 ≤ w → 1 ≤ h → w * h ≤ Image.MAX_IMAGE_PIXELS →
  FORMATS !! output_type = Some fmt →
  Image.encoder_error fmt (Image.mode (image self)) (w, h) = None →
  ∃ scaled,
    scale self w h output_type = ([], Py.Ok [Image.mkEncoded fmt 80 scaled])
    ∧ Image.size scaled = (w, h)
    ∧ Image.mode scaled = Image.mode (image self)
    ∧ Image.raster scaled
      = Image.Resized w h Image.ANTIALIAS (Image.raster (image self))
    ∧ (fmt = "JPEG" ∨ fmt = "PNG").
Proof.
  intros Hw Hh _ Hfmt Hwrites.
  rewrite (scale_writes self w h output_type fmt Hw Hh Hfmt Hwrites).
  eexists. split; [reflexivity | ].
  split; [reflexivity | ]. split; [reflexivity | ]. split; [reflexivity | ].
  destruct (FORMATS_supported _ _ Hfmt) as [[_ ->]|[_ ->]]; [now left | now right].
Qed.

Lemma scale_exact_size_witness :
  ∃ scaled,
    scale (plain 640 480) 32 32 "image/jpeg"
    = ([], Py.Ok [Image.mkEncoded "JPEG" 80 scaled])
    ∧ Image.size scaled = (32, 32)
    ∧ Image.mode scaled = Image.MRGB
    ∧ Image.raster scaled
      = Image.Resized 32 32 Image.ANTIALIAS (Image.Decoded 640 480)
    ∧ ("JPEG" = "JPEG" ∨ "JPEG" = "PNG").
Proof.
  apply (scale_exact_size (plain 640 480) 32 32 "image/jpeg" "JPEG");
    solve [lia | reflexivity | vm_compute; discriminate].
Defined.

(** X8. A requested side below one pixel makes [scale] fail in the resize,
    which comes before the format lookup: the error is the resize's
    [ValueError] even when the output type is unsupported as well. *)
Theorem scale_rejects_empty_size self (w h : Z) output_type :
  w < 1 ∨ h < 1 →
  scale self w h output_type
  = ([], Py.Raise (Py.ValueError "height and width must be > 0")).
Proof.
  intros Hempty. unfold scale.
  rewrite (resize_empty _ _ _ _ Hempty). apply bind_raised.
Qed.

Lemma scale_rejects_empty_size_witness :
  scale (plain 640 480) 1 0 "image/gif"
  = ([], Py.Raise (Py.ValueError "height and width must be > 0")).
Proof.
  apply (scale_rejects_empty_size (plain 640 480) 1 0 "image/gif"). lia.
Defined.

(** X9. Fit then scale: when the source is at most [max_width] times wider
    than tall and at most [max_height] times taller than wide, the box is
    within the library's pixel bound and the format's writer takes the
    source's pixel mode at the size of the box, scaling to the size [aspect]
    returns gives one encoded image inside the box, with sides of at least
    one pixel and one side equal to its bound. *)
Theorem fit_then_scale self max_width max_height output_type (fmt : string) :
  0 < max_width → 0 < max_height →
  0 < width self → 0 < height self →
  width self ≤ max_width * height self →
  height self ≤ max_height * width self →
  max_width * max_height ≤ Image.MAX_IMAGE_PIXELS →
  FORMATS !! output_type = Some fmt →
  Image.encoder_error fmt (Image.mode (image self)) (max_width, max_height)
  = None →
  ∃ scaled,
    (sz ← aspect self max_width max_height;
     scale self sz.1 sz.2 output_type)
    = ([], Py.Ok [Image.mkEncoded fmt 80 scaled])
    ∧ 1 ≤ (Image.size scaled).1 ≤ max_width
    ∧ 1 ≤ (Image.size scaled).2 ≤ max_height
    ∧ ((Image.size scaled).1 = max_width
       ∨ (Image.size scaled).2 = max_height).
Proof.
  intros Hmw Hmh HW HH Hwide Htall _ Hfmt Hwrites.
  rewrite aspect_positive, bind_returned by assumption.
  assert (1 ≤ max_height * width self / height self)
    by (apply div_at_least; lia).
  assert (1 ≤ max_width * height self / width self)
    by (apply div_at_least; lia).
  destruct (Z.ltb_spec (max_width * height self) (max_height * width self))
    as [Hlt|Hge]; cbn [fst snd].
  - assert (max_width * height self / width self < max_height)
      by (apply div_below; lia).
    rewrite (scale_writes self _ _ output_type fmt) by
      (try assumption; try lia;
       apply (encoder_takes_smaller _ _ _ _ _ _ Hwrites); lia).
    eexists. split; [reflexivity | ]. unfold Image.size. simpl. lia.
  - assert (max_height * width self / height self ≤ max_width)
      by (apply div_at_most; lia).
    rewrite (scale_writes self _ _ output_type fmt) by
      (try assumption; try lia;
       apply (encoder_takes_smaller _ _ _ _ _ _ Hwrites); lia).
    eexists. split; [reflexivity | ]. unfold Image.size. simpl. lia.
Qed.

Lemma fit_then_scale_witness :
  ∃ scaled,
    (sz ← aspect (plain 640 480) 320 200;
     scale (plain 640 480) sz.1 sz.2 "image/png")
    = ([], Py.Ok [Image.mkEncoded "PNG" 80 scaled])
    ∧ 1 ≤ (Image.size scaled).1 ≤ 320
    ∧ 1 ≤ (Image.size scaled).2 ≤ 200
    ∧ ((Image.size scaled).1 = 320 ∨ (Image.size scaled).2 = 200).
Proof.
  apply (fit_then_scale (plain 640 480) 320 200 "image/png" "PNG");
    solve [simpl; lia | reflexivity | vm_compute; discriminate].
Defined.

(** X10. Fit then scale on an extreme ratio: when the source is more than
    [max_width] times wider than tall, or more than [max_height] times
    taller than wide, [aspect] returns a zero side and scaling to it fails
    with the resize's [ValueError], whatever the output type. *)
Theorem fit_then_scale_extreme_ratio self max_width max_height output_type :
  0 < max_width → 0 < max_height →
  0 < width self → 0 < height self →
  max_width * height self < width self
  ∨ max_height * width self < height self →
  (sz ← aspect self max_width max_height;
   scale self sz.1 sz.2 output_type)
  = ([], Py.Raise (Py.ValueError "height and width must be > 0")).
Proof.
  intros Hmw Hmh HW HH Hextreme.
  rewrite aspect_positive, bind_returned by assumption.
  apply scale_rejects_empty_size_aux.
  destruct (Z.ltb_spec (max_width * height self) (max_height * width self))
    as [Hlt|Hge]; cbn [fst snd].
  - right. destruct Hextreme as [Hs|Hs]; [ | nia].
    rewrite Z.div_small by nia. lia.
  - left. destruct Hextreme as [Hs|Hs]; [nia | ].
    rewrite Z.div_small by nia. lia.
Qed.

Lemma fit_then_scale_extreme_ratio_witness :
  (sz ← aspect (plain 640 480) 1 1000;
   scale (plain 640 480) sz.1 sz.2 "image/png")
  = ([], Py.Raise (Py.ValueError "height and width must be > 0")).
Proof.
  apply (fit_then_scale_extreme_ratio (plain 640 480) 1 1000 "image/png");
    simpl; lia.
Defined.

End Scaling.


(** ** Further properties of the fill geometry *)

Section Filling.

Import Thumbnailer.
Implicit Types (self : Thumbnailer.t) (im : Image.t) (output_type : string).

(** X11. When the target has the source's ratio nothing is cut: for a
    target within the library's pixel bound whose size and the source's mode
    the format's writer takes, [crop] encodes the image [scale] encodes,
    passed through a crop to its full window [(0, 0, w, h)]. *)
Theorem crop_same_ratio_is_scale self (w h : Z) output_type (fmt : string) :
  0 < width self → 0 < height self → 0 < w → 0 < h →
  w * height self = h * width self →
  w * h ≤ Image.MAX_IMAGE_PIXELS →
  FORMATS !! output_type = Some fmt →
  Image.encoder_error fmt (Image.mode (image self)) (w, h) = None →
  ∃ scaled,
    scale self w h output_type = ([], Py.Ok [Image.mkEncoded fmt 80 scaled])
    ∧ crop self w h output_type
      = ([], Py.Ok [Image.mkEncoded fmt 80 (Image.crop scaled (0, 0, w, h))]).
Proof.
  intros HW HH Hw Hh Hratio _ Hfmt Hwrites.
  destruct (crop_wide_writes self w h output_type fmt HW HH Hw Hh
              ltac:(lia) Hfmt Hwrites) as [_ ->].
  rewrite (scale_writes self w h output_type fmt) by (assumption || lia).
  eexists. split; [reflexivity | ].
  rewrite <- Hratio, Z.div_mul by lia.
  rewrite Z.sub_diag, Z.div_0_l, Z.add_0_r by lia. reflexivity.
Qed.

Lemma crop_same_ratio_is_scale_witness :
  ∃ scaled,
    scale (plain 640 480) 64 48 "image/png"
    = ([], Py.Ok [Image.mkEncoded "PNG" 80 scaled])
    ∧ crop (plain 640 480) 64 48 "image/png"
      = ([], Py.Ok [Image.mkEncoded "PNG" 80
                      (Image.crop scaled (0, 0, 64, 48))]).
Proof.
  apply (crop_same_ratio_is_scale (plain 640 480) 64 48 "image/png" "PNG");
    solve [simpl; lia | reflexivity | vm_compute; discriminate].
Defined.

(** X12. The docstring of [crop] gives the resized size as two maxima; with
    floor division that is the size [crop] resizes to in either branch, so
    the resized image covers the target, and the window cut from it has the
    target's size and lies inside it.  This is for a positive source and
    target, a resized size within the library's pixel bound, and a supported
    type whose writer takes the source's mode at the target's size. *)
Theorem crop_max_formula self (w h : Z) output_type (fmt : string) :
  0 < width self → 0 < height self → 0 < w → 0 < h →
  FORMATS !! output_type = Some fmt →
  Image.encoder_error fmt (Image.mode (image self)) (w, h) = None →
  (scaled_size (width self) (height self) w h).1
  * (scaled_size (width self) (height self) w h).2 ≤ Image.MAX_IMAGE_PIXELS →
  ∃ cropped x0 y0 x1 y1,
    crop self w h output_type = ([], Py.Ok [Image.mkEncoded fmt 80 cropped])
    ∧ Image.raster cropped
      = Image.Cropped x0 y0 x1 y1
          (Image.Resized (Z.max w (h * width self / height self))
                         (Z.max h (w * height self / width self))
                         Image.ANTIALIAS (Image.raster (image self)))
    ∧ x1 - x0 = w ∧ y1 - y0 = h
    ∧ 0 ≤ x0 ∧ x1 ≤ Z.max w (h * width self / height self)
    ∧ 0 ≤ y0 ∧ y1 ≤ Z.max h (w * height self / width self).
Proof.
  intros HW HH Hw Hh Hfmt Hwrites _.
  destruct (Z.lt_ge_cases (h * width self) (w * height self)) as [Hgt|Hle].
  - destruct (crop_tall_writes self w h output_type fmt HW HH Hw Hh Hgt
                Hfmt Hwrites) as [Hcover ->].
    assert (h * width self / height self ≤ w)
      by (apply div_at_most; lia).
    destruct (centred_margins _ _ Hcover) as (Hlead & Hin & _).
    eexists _, _, _, _, _. split; [reflexivity | ].
    rewrite (Z.max_l w), (Z.max_r h) by lia.
    split; [reflexivity | ]. lia.
  - destruct (crop_wide_writes self w h output_type fmt HW HH Hw Hh Hle
                Hfmt Hwrites) as [Hcover ->].
    assert (w * height self / width self ≤ h)
      by (apply div_at_most; lia).
    destruct (centred_margins _ _ Hcover) as (Hlead & Hin & _).
    eexists _, _, _, _, _. split; [reflexivity | ].
    rewrite (Z.max_r w), (Z.max_l h) by lia.
    split; [reflexivity | ]. lia.
Qed.

Lemma crop_max_formula_witness :
  ∃ cropped x0 y0 x1 y1,
    crop (plain 640 480) 100 100 "image/png"
    = ([], Py.Ok [Image.mkEncoded "PNG" 80 cropped])
    ∧ Image.raster cropped
      = Image.Cropped x0 y0 x1 y1
          (Image.Resized (Z.max 100 (100 * 640 / 480))
                         (Z.max 100 (100 * 480 / 640))
                         Image.ANTIALIAS (Image.Decoded 640 480))
    ∧ x1 - x0 = 100 ∧ y1 - y0 = 100
    ∧ 0 ≤ x0 ∧ x1 ≤ Z.max 100 (100 * 640 / 480)
    ∧ 0 ≤ y0 ∧ y1 ≤ Z.max 100 (100 * 480 / 640).
Proof.
  apply (crop_max_formula (plain 640 480) 100 100 "image/png" "PNG");
    solve [simpl; lia | reflexivity | vm_compute; discriminate].
Defined.

(** X13. [crop] treats the two axes alike: exchanging the axes of the source
    and of the target exchanges the axes of the resize and of the window,
    ties included, although one branch tests [>] and the other is its
    [else].  This is for positive sources and target, a resized size within
    the library's pixel bound, and a supported type whose writer takes the
    mode of either source at the target's size. *)
Theorem crop_axes_exchanged self self' (w h : Z) output_type (fmt : string) :
  0 < width self → 0 < height self → 0 < w → 0 < h →
  width self' = height self → height self' = width self →
  FORMATS !! output_type = Some fmt →
  Image.encoder_error fmt (Image.mode (image self)) (w, h) = None →
  Image.encoder_error fmt (Image.mode (image self')) (h, w) = None →
  (scaled_size (width self) (height self) w h).1
  * (scaled_size (width self) (height self) w h).2 ≤ Image.MAX_IMAGE_PIXELS →
  ∃ cropped cropped' x0 y0 x1 y1 sw sh,
    crop self w h output_type = ([], Py.Ok [Image.mkEncoded fmt 80 cropped])
    ∧ crop self' h w output_type
      = ([], Py.Ok [Image.mkEncoded fmt 80 cropped'])
    ∧ Image.raster cropped
      = Image.Cropped x0 y0 x1 y1
          (Image.Resized sw sh Image.ANTIALIAS (Image.raster (image self)))
    ∧ Image.raster cropped'
      = Image.Cropped y0 x0 y1 x1
          (Image.Resized sh sw Image.ANTIALIAS (Image.raster (image self'))).
Proof.
  intros HW HH Hw Hh HW' HH' Hfmt Hwrites Hwrites' _.
  assert (0 < width self') as HWp by lia.
  assert (0 < height self') as HHp by lia.
  destruct (Z.lt_total (h * width self) (w * height self))
    as [Hgt|[Heq|Hlt]].
  - destruct (crop_tall_writes self w h output_type fmt HW HH Hw Hh Hgt
                Hfmt Hwrites) as [_ ->].
    destruct (crop_wide_writes self' h w output_type fmt HWp HHp Hh Hw
                ltac:(lia) Hfmt Hwrites') as [_ ->].
    rewrite HW', HH'.
    eexists _, _, _, _, _, _, _, _.
    split; [reflexivity | ]. split; [reflexivity | ].
    split; reflexivity.
  - destruct (crop_wide_writes self w h output_type fmt HW HH Hw Hh
                ltac:(lia) Hfmt Hwrites) as [_ ->].
    destruct (crop_wide_writes self' h w output_type fmt HWp HHp Hh Hw
                ltac:(lia) Hfmt Hwrites') as [_ ->].
    rewrite HW', HH'.
    rewrite Heq, Z.div_mul by lia.
    rewrite <- Heq, Z.div_mul by lia.
    rewrite !Z.sub_diag, !Z.div_0_l, !Z.add_0_r by lia.
    eexists _, _, _, _, _, _, _, _.
    split; [reflexivity | ]. split; [reflexivity | ].
    split; reflexivity.
  - destruct (crop_wide_writes self w h output_type fmt HW HH Hw Hh
                ltac:(lia) Hfmt Hwrites) as [_ ->].
    destruct (crop_tall_writes self' h w output_type fmt HWp HHp Hh Hw
                ltac:(lia) Hfmt Hwrites') as [_ ->].
    rewrite HW', HH'.
    eexists _, _, _, _, _, _, _, _.
    split; [reflexivity | ]. split; [reflexivity | ].
    split; reflexivity.
Qed.

Lemma crop_axes_exchanged_witness :
  ∃ cropped cropped' x0 y0 x1 y1 sw sh,
    crop (plain 640 480) 100 100 "image/png"
    = ([], Py.Ok [Image.mkEncoded "PNG" 80 cropped])
    ∧ crop (plain 480 640) 100 100 "image/png"
      = ([], Py.Ok [Image.mkEncoded "PNG" 80 cropped'])
    ∧ Image.raster cropped
      = Image.Cropped x0 y0 x1 y1
          (Image.Resized sw sh Image.ANTIALIAS (Image.Decoded 640 480))
    ∧ Image.raster cropped'
      = Image.Cropped y0 x0 y1 x1
          (Image.Resized sh sw Image.ANTIALIAS (Image.Decoded 480 640)).
Proof.
  apply (crop_axes_exchanged (plain 640 480) (plain 480 640) 100 100
           "image/png" "PNG");
    solve [simpl; lia | reflexivity | vm_compute; discriminate].
Defined.

End Filling.


(** ** Further properties of construction and orientation *)

Section Lifecycle.

Import Thumbnailer.
Implicit Types (self : Thumbnailer.t) (im : Image.t).

(** What [transpose()] does to the stored sides of an instance whose
    [width] and [height] are those of its image. *)
Lemma transpose_sides self :
  (width self, height self) = Image.size (image self) →
  (width (transpose self).2, height (transpose self).2)
  = Image.size (image (transpose self).2)
  ∧ (transpose self).1
    = (width (transpose self).2, height (transpose self).2)
  ∧ (width (transpose self).2, height (transpose self).2)
    = match transpose_method self with
      | Some m =>
          if Image.swaps_axes m then (height self, width self)
          else (width self, height self)
      | None => (width self, height self)
      end.
Proof.
  intros Hsize.
  destruct (transpose_method self) as [m|] eqn:Hm.
  - rewrite (transpose_with_method _ _ Hm).
    unfold Image.size in *. simpl.
    destruct (Image.raster_size (Image.raster (image self))) as [w h].
    injection Hsize as -> ->.
    destruct (Image.swaps_axes m); repeat split.
  - rewrite (transpose_without_method _ Hm). simpl.
    split; [exact Hsize | ]. split; [now rewrite Hsize | reflexivity].
Qed.

(** X14. [transpose()] keeps the stored sides in step with the image: on an
    instance whose [width] and [height] are those of its image, they still
    are afterwards and they are the pair returned; the two sides are kept or
    exchanged, so their product is unchanged and positive sides stay
    positive. *)
Theorem transpose_keeps_sides_in_step self :
  (width self, height self) = Image.size (image self) →
  (width (transpose self).2, height (transpose self).2)
  = Image.size (image (transpose self).2)
  ∧ (transpose self).1
    = (width (transpose self).2, height (transpose self).2)
  ∧ width (transpose self).2 * height (transpose self).2
    = width self * height self
  ∧ (0 < width self → 0 < height self →
     0 < width (transpose self).2 ∧ 0 < height (transpose self).2).
Proof.
  intros Hsize.
  destruct (transpose_sides self Hsize) as (Hstep & Hret & Hsides).
  split; [exact Hstep | ]. split; [exact Hret | ].
  destruct (transpose_method self) as [m|];
    [destruct (Image.swaps_axes m) | ];
    injection Hsides as -> ->; split; lia.
Qed.

Lemma transpose_keeps_sides_in_step_witness :
  let self := {| image := tagged 100 50 (Py.Int 6); width := 100;
                 height := 50; transpose_method := Some Image.ROTATE_270 |} in
  (width (transpose self).2, height (transpose self).2)
  = Image.size (image (transpose self).2)
  ∧ (transpose self).1
    = (width (transpose self).2, height (transpose self).2)
  ∧ width (transpose self).2 * height (transpose self).2
    = width self * height self
  ∧ (0 < width self → 0 < height self →
     0 < width (transpose self).2 ∧ 0 < height (transpose self).2).
Proof.
  intros self. apply (transpose_keeps_sides_in_step self). reflexivity.
Defined.

(** X15. Every orientation value from 2 to 8 has a transform in the table.
    For a file of size [(w, h)] carrying such a value, construction leaves
    that transform pending without logging, and [transpose()] applies it
    once to the decoded raster, returns [(h, w)] for the values 5 to 8 and
    [(w, h)] for 2 to 4, sets [info["exif"]] to [None] and leaves nothing
    pending. *)
Theorem transpose_by_orientation (files : gmap string Image.t)
    (input_path : string) im (exif : gmap Z Py.Value) (n w h : Z) :
  files !! input_path = Some im →
  Image.size im = (w, h) →
  Image.getexif im = Image.GetexifReturns (Some exif) →
  exif !! EXIF_ORIENTATION_TAG = Some (Py.Int n) →
  2 ≤ n ≤ 8 →
  ∃ self m,
    __init__ files input_path = ([], Py.Ok self)
    ∧ EXIF_TRANSPOSE_MAPPINGS !! n = Some m
    ∧ transpose_method self = Some m
    ∧ (transpose self).1 = (if 5 <=? n then (h, w) else (w, h))
    ∧ Image.raster (image (transpose self).2)
      = Image.Transposed m (Image.raster im)
    ∧ Image.info_exif (image (transpose self).2) = Some None
    ∧ transpose_method (transpose self).2 = None.
Proof.
  intros Hfile Hsize Hexif Htag Hn.
  rewrite (init_decodable _ _ _ Hfile), Hexif, Htag.
  unfold Image.size in Hsize.
  assert (n = 2 ∨ n = 3 ∨ n = 4 ∨ n = 5 ∨ n = 6 ∨ n = 7 ∨ n = 8)
    as [->|[->|[->|[->|[->|[->| ->]]]]]] by lia;
    eexists _, _; (split; [reflexivity | ]); (split; [reflexivity | ]);
    (split; [reflexivity | ]);
    unfold transpose, Image.size; simpl; rewrite Hsize; simpl;
    repeat split.
Qed.

Lemma transpose_by_orientation_witness :
  ∃ self m,
    __init__ {[ "photo.jpg" := tagged 100 50 (Py.Int 3) ]} "photo.jpg"
    = ([], Py.Ok self)
    ∧ EXIF_TRANSPOSE_MAPPINGS !! 3 = Some m
    ∧ transpose_method self = Some m
    ∧ (transpose self).1 = (if 5 <=? 3 then (50, 100) else (100, 50))
    ∧ Image.raster (image (transpose self).2)
      = Image.Transposed m (Image.raster (tagged 100 50 (Py.Int 3)))
    ∧ Image.info_exif (image (transpose self).2) = Some None
    ∧ transpose_method (transpose self).2 = None.
Proof.
  apply (transpose_by_orientation {[ "photo.jpg" := tagged 100 50 (Py.Int 3) ]}
           "photo.jpg" (tagged 100 50 (Py.Int 3))
           {[ EXIF_ORIENTATION_TAG := Py.Int 3 ]} 3 100 50);
    solve [reflexivity | lia].
Defined.

(** X16. Orientation correction commutes with fitting: when the pending
    transform is one that exchanges the axes, fitting the corrected instance
    into the box [(max_height, max_width)] gives the sides that fitting the
    uncorrected instance into [(max_width, max_height)] gives, exchanged. *)
Theorem aspect_after_transpose self (m : Image.Method) (max_width max_height : Z) :
  (width self, height self) = Image.size (image self) →
  0 < width self → 0 < height self →
  transpose_method self = Some m →
  Image.swaps_axes m = true →
  ∃ w_out h_out,
    aspect self max_width max_height = ([], Py.Ok (w_out, h_out))
    ∧ aspect (transpose self).2 max_height max_width
      = ([], Py.Ok (h_out, w_out)).
Proof.
  intros Hsize HW HH Hm Hswap.
  destruct (transpose_sides self Hsize) as (_ & _ & Hsides).
  rewrite Hm, Hswap in Hsides. injection Hsides as HW' HH'.
  rewrite (aspect_min_formula self) by assumption.
  rewrite (aspect_min_formula (transpose self).2) by lia.
  rewrite HW', HH'.
  eexists _, _. split; reflexivity.
Qed.

Lemma aspect_after_transpose_witness :
  let self := {| image := tagged 100 50 (Py.Int 6); width := 100;
                 height := 50; transpose_method := Some Image.ROTATE_270 |} in
  ∃ w_out h_out,
    aspect self 30 40 = ([], Py.Ok (w_out, h_out))
    ∧ aspect (transpose self).2 40 30 = ([], Py.Ok (h_out, w_out)).
Proof.
  intros self.
  apply (aspect_after_transpose self Image.ROTATE_270 30 40);
    solve [reflexivity | simpl; lia].
Defined.

Lemma transpose_keeps_mode self :
  Image.mode (image (transpose self).2) = Image.mode (image self).
Proof.
  destruct (transpose_method self) as [m|] eqn:Hm.
  - rewrite (transpose_with_method _ _ Hm). reflexivity.
  - rewrite (transpose_without_method _ Hm). reflexivity.
Qed.

(** [crop] on a source with positive sides, for a positive target and a
    supported type whose writer takes the source's mode at the target's
    size: one encoded image of the target's size. *)
Lemma crop_size self (w h : Z) (output_type fmt : string) :
  0 < width self → 0 < height self → 0 < w → 0 < h →
  FORMATS !! output_type = Some fmt →
  Image.encoder_error fmt (Image.mode (image self)) (w, h) = None →
  ∃ cropped,
    crop self w h output_type = ([], Py.Ok [Image.mkEncoded fmt 80 cropped])
    ∧ Image.size cropped = (w, h).
Proof.
  intros HW HH Hw Hh Hfmt Hwrites.
  destruct (Z.lt_ge_cases (h * width self) (w * height self)) as [Hgt|Hle].
  - destruct (crop_tall_writes self w h output_type fmt HW HH Hw Hh Hgt
              Hfmt Hwrites) as [_ ->].
    eexists. split; [reflexivity | ].
    unfold Image.size. simpl. f_equal; lia.
  - destruct (crop_wide_writes self w h output_type fmt HW HH Hw Hh Hle
              Hfmt Hwrites) as [_ ->].
    eexists. split; [reflexivity | ].
    unfold Image.size. simpl. f_equal; lia.
Qed.

(** X17. From file to thumbnail: for a file that decodes to positive sides,
    whatever its EXIF reader returns or raises (within [Exception]),
    constructing, correcting the orientation and cropping to a positive
    target gives one encoded image of exactly the target's size, provided
    the type is supported, the format's writer takes the file's pixel mode
    at the target's size, and the resized image is within the library's
    pixel bound whether or not the correction exchanges the axes. *)
Theorem open_transpose_crop (files : gmap string Image.t)
    (input_path : string) im (W H w h : Z) (output_type fmt : string) :
  files !! input_path = Some im →
  Image.size im = (W, H) → 0 < W → 0 < H →
  (∀ e, Image.getexif im = Image.GetexifRaises e → Py.is_Exception e = true) →
  0 < w → 0 < h →
  FORMATS !! output_type = Some fmt →
  Image.encoder_error fmt (Image.mode im) (w, h) = None →
  (scaled_size W H w h).1 * (scaled_size W H w h).2
  ≤ Image.MAX_IMAGE_PIXELS →
  (scaled_size H W w h).1 * (scaled_size H W w h).2
  ≤ Image.MAX_IMAGE_PIXELS →
  ∃ log self cropped,
    __init__ files input_path = (log, Py.Ok self)
    ∧ crop (transpose self).2 w h output_type
      = ([], Py.Ok [Image.mkEncoded fmt 80 cropped])
    ∧ Image.size cropped = (w, h).
Proof.
  intros Hfile Hsize HW HH Hexc Hw Hh Hfmt Hwrites _ _.
  rewrite (init_decodable _ _ _ Hfile), Hsize. simpl.
  assert (∀ tm,
    let self := {| image := im; width := W; height := H;
                   transpose_method := tm |} in
    ∃ cropped,
      crop (transpose self).2 w h output_type
      = ([], Py.Ok [Image.mkEncoded fmt 80 cropped])
      ∧ Image.size cropped = (w, h)) as Hcrop.
  { intros tm self.
    destruct (transpose_sides self (eq_sym Hsize)) as (_ & _ & Hsides).
    assert (0 < width (transpose self).2 ∧ 0 < height (transpose self).2)
      as [HW' HH'].
    { remember (transpose self).2 as corrected eqn:Hcorrected.
      clear Hcorrected. subst self. simpl in Hsides.
      destruct tm as [m|]; [destruct (Image.swaps_axes m) | ];
        injection Hsides as -> ->; split; assumption. }
    apply crop_size; try assumption.
    rewrite transpose_keeps_mode. exact Hwrites. }
  destruct (Image.getexif im) as [e|[exif|]] eqn:Hexif.
  - rewrite (Hexc e eq_refl).
    destruct (Hcrop None) as (cropped & Hc & Hs).
    eexists _, _, cropped. split; [reflexivity | ]. split; assumption.
  - destruct (Hcrop (EXIF_TRANSPOSE_MAPPINGS_get
                       (exif !! EXIF_ORIENTATION_TAG)))
      as (cropped & Hc & Hs).
    eexists _, _, cropped. split; [reflexivity | ]. split; assumption.
  - destruct (Hcrop None) as (cropped & Hc & Hs).
    eexists _, _, cropped. split; [reflexivity | ]. split; assumption.
Qed.

Lemma open_transpose_crop_witness :
  ∃ log self cropped,
    __init__ {[ "photo.jpg" := tagged 100 50 (Py.Int 6) ]} "photo.jpg"
    = (log, Py.Ok self)
    ∧ crop (transpose self).2 32 32 "image/jpeg"
      = ([], Py.Ok [Image.mkEncoded "JPEG" 80 cropped])
    ∧ Image.size cropped = (32, 32).
Proof.
  apply (open_transpose_crop {[ "photo.jpg" := tagged 100 50 (Py.Int 6) ]}
           "photo.jpg" (tagged 100 50 (Py.Int 6)) 100 50 32 32
           "image/jpeg" "JPEG");
    solve [reflexivity | lia | discriminate | vm_compute; discriminate].
Defined.

(** X18. Construction returns an instance exactly when the path decodes and
    the EXIF reader raises nothing outside [Exception]: a decoding failure
    is not swallowed, a metadata failure is. *)
Theorem init_returns_iff (files : gmap string Image.t) (input_path : string) :
  (∃ log self, __init__ files input_path = (log, Py.Ok self))
  ↔ (∃ im, files !! input_path = Some im
           ∧ ∀ e, Image.getexif im = Image.GetexifRaises e →
                  Py.is_Exception e = true).
Proof.
  split.
  - intros (log & self & Hinit).
    destruct (files !! input_path) as [im|] eqn:Hfile.
    + exists im. split; [reflexivity | ]. intros e Hexif.
      rewrite (init_decodable _ _ _ Hfile), Hexif in Hinit.
      destruct (Py.is_Exception e); [reflexivity | discriminate].
    + rewrite (init_undecodable _ _ Hfile) in Hinit. discriminate.
  - intros (im & Hfile & Hexc).
    rewrite (init_decodable _ _ _ Hfile).
    destruct (Image.getexif im) as [e|[exif|]].
    + rewrite (Hexc e eq_refl). eexists _, _. reflexivity.
    + eexists _, _. reflexivity.
    + eexists _, _. reflexivity.
Qed.

(** X19. Construction writes at most one log record, at level INFO, and only
    when the EXIF reader of a decoded file raised an [Exception]; a missing
    block, a missing tag or an unusable value is not logged, nor is a
    decoding failure. *)
Theorem init_logs_only_reader_errors (files : gmap string Image.t)
    (input_path : string) :
  (__init__ files input_path).1 = []
  ∨ ∃ im e,
      files !! input_path = Some im
      ∧ Image.getexif im = Image.GetexifRaises e
      ∧ Py.is_Exception e = true
      ∧ (__init__ files input_path).1
        = [Py.mkLog Py.INFO "Error parsing image EXIF information: %s" e].
Proof.
  destruct (files !! input_path) as [im|] eqn:Hfile.
  - rewrite (init_decodable _ _ _ Hfile).
    destruct (Image.getexif im) as [e|[exif|]] eqn:Hexif;
      [ | left; reflexivity | left; reflexivity].
    destruct (Py.is_Exception e) eqn:Hcls; [ | left; reflexivity].
    right. exists im, e. repeat split; assumption.
  - rewrite (init_undecodable _ _ Hfile). left. reflexivity.
Qed.

End Lifecycle.


(** ** Further properties of the encoder and of the resize before a crop *)

Section Encoder.

Import Thumbnailer.
Implicit Types (self : Thumbnailer.t) (im : Image.t) (output_type : string).

(** X20. The encoder returns a buffer exactly when the output type is in the
    table and the writer of its format takes the image's mode and size; the
    buffer then holds the image as it was handed over, written once at
    quality 80, as JPEG for [image/jpeg] and as PNG for [image/png].  When
    the type is in the table and the writer refuses the image, the writer's
    error leaves the encoder: nothing is converted first. *)
Theorem encode_image_accepts_iff im output_type :
  ((∃ log buf, _encode_image im output_type = (log, Py.Ok buf))
   ↔ ∃ fmt, FORMATS !! output_type = Some fmt
            ∧ Image.encoder_error fmt (Image.mode im) (Image.size im) = None)
  ∧ (∀ log buf,
       _encode_image im output_type = (log, Py.Ok buf) →
       log = []
       ∧ ∃ fmt,
           ((output_type = "image/jpeg" ∧ fmt = "JPEG")
            ∨ (output_type = "image/png" ∧ fmt = "PNG"))
           ∧ buf = [Image.mkEncoded fmt 80 im])
  ∧ (∀ fmt e,
       FORMATS !! output_type = Some fmt →
       Image.encoder_error fmt (Image.mode im) (Image.size im) = Some e →
       _encode_image im output_type = ([], Py.Raise e)).
Proof.
  assert (∀ log buf,
            _encode_image im output_type = (log, Py.Ok buf) →
            ∃ fmt, FORMATS !! output_type = Some fmt
                   ∧ Image.encoder_error fmt (Image.mode im) (Image.size im)
                     = None
                   ∧ log = [] ∧ buf = [Image.mkEncoded fmt 80 im]) as Hinv.
  { intros log buf Henc.
    destruct (FORMATS !! output_type) as [fmt|] eqn:Hfmt.
    - destruct (Image.encoder_error fmt (Image.mode im) (Image.size im))
        as [e|] eqn:Hwrites.
      + rewrite (encode_refused _ _ _ _ Hfmt Hwrites) in Henc. discriminate.
      + rewrite (encode_supported _ _ _ Hfmt Hwrites) in Henc.
        injection Henc as <- <-. exists fmt.
        split; [reflexivity | ]. split; [exact Hwrites | ].
        split; reflexivity.
    - rewrite (encode_unsupported _ _ Hfmt) in Henc. discriminate. }
  split; [split | split].
  - intros (log & buf & Henc).
    destruct (Hinv _ _ Henc) as (fmt & Hfmt & Hwrites & _).
    exists fmt. split; assumption.
  - intros (fmt & Hfmt & Hwrites).
    eexists _, _. apply (encode_supported _ _ _ Hfmt Hwrites).
  - intros log buf Henc.
    destruct (Hinv _ _ Henc) as (fmt & Hfmt & _ & -> & ->).
    split; [reflexivity | ]. exists fmt.
    split; [apply FORMATS_supported, Hfmt | reflexivity].
  - intros fmt e Hfmt Hrefuses. apply (encode_refused _ _ _ _ Hfmt Hrefuses).
Qed.

(** X21. [crop] resizes no further than it must: for positive source and
    target, a resized size within the library's pixel bound and a supported
    type whose writer takes the source's mode at the target's size, the size
    it resizes to covers the target, equals it on one axis, and is within
    every size of the source's ratio that covers the target. *)
Theorem crop_smallest_cover self (w h w' h' : Z) output_type (fmt : string) :
  0 < width self → 0 < height self → 0 < w → 0 < h →
  FORMATS !! output_type = Some fmt →
  Image.encoder_error fmt (Image.mode (image self)) (w, h) = None →
  (scaled_size (width self) (height self) w h).1
  * (scaled_size (width self) (height self) w h).2 ≤ Image.MAX_IMAGE_PIXELS →
  w ≤ w' → h ≤ h' → w' * height self = h' * width self →
  ∃ cropped x0 y0 x1 y1 sw sh,
    crop self w h output_type = ([], Py.Ok [Image.mkEncoded fmt 80 cropped])
    ∧ Image.raster cropped
      = Image.Cropped x0 y0 x1 y1
          (Image.Resized sw sh Image.ANTIALIAS (Image.raster (image self)))
    ∧ w ≤ sw ∧ h ≤ sh ∧ (sw = w ∨ sh = h)
    ∧ sw ≤ w' ∧ sh ≤ h'.
Proof.
  intros HW HH Hw Hh Hfmt Hwrites _ Hw' Hh' Hratio.
  destruct (Z.lt_ge_cases (h * width self) (w * height self)) as [Hgt|Hle].
  - destruct (crop_tall_writes self w h output_type fmt HW HH Hw Hh Hgt
                Hfmt Hwrites) as [Hcover ->].
    eexists _, _, _, _, _, _, _. split; [reflexivity | ].
    split; [reflexivity | ].
    assert (w * height self / width self ≤ h')
      by (apply div_at_most; [assumption | nia]).
    lia.
  - destruct (crop_wide_writes self w h output_type fmt HW HH Hw Hh Hle
                Hfmt Hwrites) as [Hcover ->].
    eexists _, _, _, _, _, _, _. split; [reflexivity | ].
    split; [reflexivity | ].
    assert (h * width self / height self ≤ w')
      by (apply div_at_most; [assumption | nia]).
    lia.
Qed.

Lemma crop_smallest_cover_witness :
  ∃ cropped x0 y0 x1 y1 sw sh,
    crop (plain 640 480) 100 100 "image/png"
    = ([], Py.Ok [Image.mkEncoded "PNG" 80 cropped])
    ∧ Image.raster cropped
      = Image.Cropped x0 y0 x1 y1
          (Image.Resized sw sh Image.ANTIALIAS (Image.Decoded 640 480))
    ∧ 100 ≤ sw ∧ 100 ≤ sh ∧ (sw = 100 ∨ sh = 100)
    ∧ sw ≤ 160 ∧ sh ≤ 120.
Proof.
  apply (crop_smallest_cover (plain 640 480) 100 100 160 120
           "image/png" "PNG");
    solve [simpl; lia | reflexivity | vm_compute; discriminate].
Defined.

End Encoder.
